(** * SignAlexNet (fate_llm/model_zoo/ipr/alexnet.py)

    A shallow embedding of the model definition [SignAlexNet]: the
    construction loop that builds the eight-stage feature pipeline from the
    two position-keyed tables, the linear classifier head, and the forward
    computation with its training/evaluation switch.

    The numeric backend (torch tensors, [nn.MaxPool2d], [nn.Linear], [view],
    [softmax]) and the two layer primitives of the sibling module
    [sign_block] are not part of the file: they are an interface here, and
    the results hold for every implementation of it. *)

From stdpp Require Import base gmap list strings.
From Stdlib Require Import ssreflect ZArith QArith Lia.

Local Open Scope Z_scope.

(** ** Python values and exceptions *)

(** The values a caller can hand to the constructor as [num_classes]: the
    parameter carries no annotation and no check, so any object arrives. A
    float is kept by its rational value. *)
Inductive value : Type :=
  | VInt (z : Z)
  | VFloat (q : Q)
  | VStr (s : string)
  | VNone.

Inductive exn : Type :=
  | KeyError (key : Z)
  | IndexError
  | TypeError
  | RuntimeError.

Inductive result (A : Type) : Type :=
  | Ok (a : A)
  | Raise (e : exn).
Arguments Ok {A} a.
Arguments Raise {A} e.

#[export] Instance result_ret : MRet result := @Ok.
#[export] Instance result_bind : MBind result :=
  λ A B f r, match r with Ok a => f a | Raise e => Raise e end.

Definition is_Ok {A} (r : result A) : Prop := ∃ a, r = Ok a.

(** [d[k]] on a dict: a missing key raises [KeyError]. *)
Definition getitem {V} (d : gmap Z V) (k : Z) : result V :=
  match d !! k with
  | Some v => Ok v
  | None => Raise (KeyError k)
  end.

(** [for a in l: s = body(s, a)], stopping at the first exception. *)
Fixpoint for_each {S A} (body : S → A → result S) (l : list A) (s : S) : result S :=
  match l with
  | [] => Ok s
  | a :: l' => s' ← body s a; for_each body l' s'
  end.

(** ** Layers *)

(** A constructed layer, by the constructor call that made it. *)
Inductive Layer : Type :=
  | MaxPool2d (kernel_size stride : Z)
  | SignatureConv (in_channels out_channels kernel_size stride padding : Z)
  | ConvBlock (in_channels out_channels kernel_size stride padding : Z).

#[export] Instance Layer_eq_dec : EqDecision Layer.
Proof. solve_decision. Defined.

Inductive LayerRole : Type := MaxPool | SignedConvBlock | PlainConvBlock.

Definition role (m : Layer) : LayerRole :=
  match m with
  | MaxPool2d _ _ => MaxPool
  | SignatureConv _ _ _ _ _ => SignedConvBlock
  | ConvBlock _ _ _ _ _ => PlainConvBlock
  end.

Definition is_conv (m : Layer) : bool :=
  match m with MaxPool2d _ _ => false | _ => true end.

Definition layer_in (m : Layer) : option Z :=
  match m with
  | MaxPool2d _ _ => None
  | SignatureConv i _ _ _ _ | ConvBlock i _ _ _ _ => Some i
  end.

Definition layer_out (m : Layer) : option Z :=
  match m with
  | MaxPool2d _ _ => None
  | SignatureConv _ o _ _ _ | ConvBlock _ o _ _ _ => Some o
  end.

Definition layer_kernel (m : Layer) : Z :=
  match m with
  | MaxPool2d k _ | SignatureConv _ _ k _ _ | ConvBlock _ _ k _ _ => k
  end.

Definition layer_stride (m : Layer) : Z :=
  match m with
  | MaxPool2d _ s | SignatureConv _ _ _ s _ | ConvBlock _ _ _ s _ => s
  end.

Definition layer_padding (m : Layer) : Z :=
  match m with
  | MaxPool2d _ _ => 0
  | SignatureConv _ _ _ _ p | ConvBlock _ _ _ _ p => p
  end.

(** The channel count carried out of a prefix of the pipeline that is fed
    [c] channels: a convolutional stage sets it, a pooling stage keeps it. *)
Definition channels_after (c : Z) (ms : list Layer) : Z :=
  foldl (λ c m, default c (layer_out m)) c ms.

(** [nn.Linear(in_features, out_features)]: the two arguments are stored as
    given. *)
Record Linear : Type := mkLinear { in_features : Z; out_features : value }.

(** ** The numeric backend *)

(** What the model calls and does not define. [Params] is the state of the
    sub-modules (weights, buffers); a layer is addressed by its position in
    the pipeline. [Linear_check] is the argument check of [nn.Linear]'s own
    constructor: [None] when it accepts. *)
Class Torch : Type := {
  Tensor : Type;
  Params : Type;
  shape : Tensor → list Z;
  Linear_check : Z → value → option exn;
  MaxPool2d_forward : Z → Z → Tensor → result Tensor;
  SignatureConv_forward : Params → nat → Z → Z → Z → Z → Z → Tensor → result Tensor;
  ConvBlock_forward : Params → nat → Z → Z → Z → Z → Z → Tensor → result Tensor;
  Linear_forward : Params → Linear → Tensor → result Tensor;
  size : Tensor → Z → result Z;
  view : Tensor → list Z → result Tensor;
  softmax : Tensor → Z → result Tensor
}.

Definition nn_Linear `{Torch} (i : Z) (o : value) : result Linear :=
  match Linear_check i o with
  | Some e => Raise e
  | None => Ok (mkLinear i o)
  end.

(** [m(x)] for a layer [m] at position [i] of the pipeline. *)
Definition Layer_call `{Torch} (θ : Params) (i : nat) (m : Layer) (x : Tensor) : result Tensor :=
  match m with
  | MaxPool2d k s => MaxPool2d_forward k s x
  | SignatureConv ci co k s p => SignatureConv_forward θ i ci co k s p x
  | ConvBlock ci co k s p => ConvBlock_forward θ i ci co k s p x
  end.

(** ** The model *)

Module SignAlexNet.

Record t : Type := mk {
  features : list Layer;
  classifier : Linear;
  training : bool
}.

Definition in_channels : Z := 3.
Definition maxpoolidx : list Z := [1; 3; 7].
Definition signed_layer : list Z := [4; 5; 6].

Definition oups : gmap Z Z :=
  {[ 0 := 64; 2 := 192; 4 := 384; 5 := 256; 6 := 256 ]}.

Definition kp : gmap Z (Z * Z) :=
  {[ 0 := (5, 2); 2 := (5, 2); 4 := (3, 1); 5 := (3, 1); 6 := (3, 1) ]}.

(** One turn of the construction loop on the locals [(layers, inp)]. *)
Definition loop_body (st : list Layer * Z) (layeridx : Z) : result (list Layer * Z) :=
  let '(layers, inp) := st in
  if bool_decide (layeridx ∈ maxpoolidx) then
    Ok (layers ++ [MaxPool2d 2 2], inp)
  else
    e0 ← getitem kp layeridx;
    let k := e0.1 in
    e1 ← getitem kp layeridx;
    let p := e1.2 in
    layers' ←
      (if bool_decide (layeridx ∈ signed_layer) then
         o ← getitem oups layeridx;
         Ok (layers ++ [SignatureConv inp o k 1 p])
       else
         o ← getitem oups layeridx;
         Ok (layers ++ [ConvBlock inp o k 1 p]));
    inp' ← getitem oups layeridx;
    Ok (layers', inp').

(** [for layeridx in range(8)], from [layers = []] and [inp = in_channels]. *)
Definition build_layers : result (list Layer * Z) :=
  for_each loop_body (seqZ 0 8) ([], in_channels).

Definition __init__ `{Torch} (num_classes : value) : result t :=
  st ← build_layers;
  c ← nn_Linear (4 * 4 * 256) num_classes;
  Ok (mk st.1 c true).

(** [self.training = mode]: the model's own flag, which only a caller
    assigns ([nn.Module.train] and [eval] do; the flags of the sub-modules
    belong to their state, [Params]). *)
Definition set_training (mode : bool) (self : t) : t :=
  mk (features self) (classifier self) mode.

(** *** Method bodies

    A method runs against the object [self]: it may read and assign its
    attributes, it calls into the backend, and it returns or raises. The
    outcome of a run keeps all three: what was returned, the object as the
    run left it, and the backend calls it made, in order. *)

Inductive Call : Type :=
  | CallLayer (i : nat)
  | CallSize
  | CallView
  | CallClassifier
  | CallSoftmax.

Record outcome (A : Type) : Type := Outcome {
  returned : result A;
  self_after : t;
  calls : list Call
}.
Arguments Outcome {A} _ _ _.
Arguments returned {A} _.
Arguments self_after {A} _.
Arguments calls {A} _.

Definition M (A : Type) : Type := t → outcome A.

#[export] Instance M_ret : MRet M := λ A a self, Outcome (Ok a) self [].
#[export] Instance M_bind : MBind M := λ A B f c self,
  let o := c self in
  match returned o with
  | Ok a =>
      let o' := f a (self_after o) in
      Outcome (returned o') (self_after o') (calls o ++ calls o')
  | Raise e => Outcome (Raise e) (self_after o) (calls o)
  end.

(** [self.a] *)
Definition attr {A} (a : t → A) : M A := λ self, Outcome (Ok (a self)) self [].

(** A call into the backend: logged, and its exception propagates. *)
Definition invoke {A} (c : Call) (r : result A) : M A := λ self, Outcome r self [c].

(** [self.a = v], as an update of the object. *)
Definition assign (upd : t → t) : M () := λ self, Outcome (Ok ()) (upd self) [].

Section forward.
Context `{Torch} (θ : Params).

(** [for m in self.features: x = m(x)], the layers counted from [i]. *)
Fixpoint run_layers (i : nat) (ms : list Layer) (x : Tensor) : M Tensor :=
  match ms with
  | [] => mret x
  | m :: ms' =>
      x' ← invoke (CallLayer i) (Layer_call θ i m x);
      run_layers (S i) ms' x'
  end.

Definition forward (x : Tensor) : M Tensor :=
  ms ← attr features;
  x ← run_layers 0 ms x;
  b ← invoke CallSize (size x 0);
  x ← invoke CallView (view x [b; -1]);
  c ← attr classifier;
  x ← invoke CallClassifier (Linear_forward θ c x);
  tr ← attr training;
  if (tr : bool) then mret x else invoke CallSoftmax (softmax x 1).

(** The algorithm as the specification words it: thread the tensor
    through the layers in order, ... *)
Fixpoint spec_feature_map (i : nat) (ms : list Layer) (x : Tensor) : result Tensor :=
  match ms with
  | [] => Ok x
  | m :: ms' => x' ← Layer_call θ i m x; spec_feature_map (S i) ms' x'
  end.

(** ... flatten per example and apply the classifier. *)
Definition spec_scores (self : t) (x : Tensor) : result Tensor :=
  x ← spec_feature_map 0 (features self) x;
  b ← size x 0;
  x ← view x [b; -1];
  Linear_forward θ (classifier self) x.

(** How many layers of [ms] get called on [x]: all of them, or up to and
    including the first that raises. *)
Fixpoint layers_called (i : nat) (ms : list Layer) (x : Tensor) : nat :=
  match ms with
  | [] => 0
  | m :: ms' =>
      S (match Layer_call θ i m x with
         | Ok x' => layers_called (S i) ms' x'
         | Raise _ => 0
         end)
  end.

(** What is called after the layers, given what each call returned. *)
Definition tail_calls (self : t) (x : Tensor) : list Call :=
  CallSize ::
  match size x 0 with
  | Raise _ => []
  | Ok b =>
      CallView ::
      match view x [b; -1] with
      | Raise _ => []
      | Ok x1 =>
          CallClassifier ::
          match Linear_forward θ (classifier self) x1 with
          | Raise _ => []
          | Ok _ => if training self then [] else [CallSoftmax]
          end
      end
  end.

(** Forward as the specification words it, "pure function composition":
    a list of stages, each a function of the tensor alone, run one after
    the other until one raises. The list is read off the model: one stage
    per layer, the flatten, the classifier, and, when the flag says
    evaluation, the softmax. *)
Fixpoint compose_all (fs : list (Tensor → result Tensor)) (x : Tensor) : result Tensor :=
  match fs with
  | [] => Ok x
  | f :: fs' => x' ← f x; compose_all fs' x'
  end.

Fixpoint layer_stages (i : nat) (ms : list Layer) : list (Tensor → result Tensor) :=
  match ms with
  | [] => []
  | m :: ms' => Layer_call θ i m :: layer_stages (S i) ms'
  end.

Definition spec_flatten (x : Tensor) : result Tensor :=
  b ← size x 0; view x [b; -1].

Definition spec_stages (self : t) : list (Tensor → result Tensor) :=
  layer_stages 0 (features self)
  ++ [spec_flatten; Linear_forward θ (classifier self)]
  ++ (if training self then [] else [λ scores, softmax scores 1]).
End forward.

(** The calls a complete run makes on a model: fixed by the number of
    layers and the mode flag. *)
Definition full_calls (self : t) : list Call :=
  (CallLayer <$> seq 0 (length (features self)))
  ++ [CallSize; CallView; CallClassifier]
  ++ (if training self then [] else [CallSoftmax]).

End SignAlexNet.

Import SignAlexNet.

(** ** Shapes *)

(** Output extent of a sliding window of size [k], stride [s] and padding
    [p] over an extent [h]. *)
Definition out_dim (h k s p : Z) : Z := (h + 2 * p - k) `div` s + 1.

(** [nn.MaxPool2d(k, s)] on a (batch, channels, height, width) input:
    torch's window arithmetic, without padding; [None] where it rejects the
    input. *)
Definition pool_shape (k s : Z) (sh : list Z) : option (list Z) :=
  match sh with
  | [b; c; h; w] =>
      if bool_decide (0 < s ∧ k ≤ h ∧ k ≤ w)
      then Some [b; c; out_dim h k s 0; out_dim w k s 0]
      else None
  | _ => None
  end.

(** Modelled from the spec: [SignatureConv] and [ConvBlock] live in the
    sibling module [sign_block], which the sources do not include. Each
    takes a feature tensor to a feature tensor of the expected shape: the
    channel depth goes from the in-channel count it was built with to its
    out-channel count, and the extent follows the window arithmetic of its
    kernel size, stride and padding. *)
Definition block_shape (ci co k s p : Z) (sh : list Z) : option (list Z) :=
  match sh with
  | [b; c; h; w] =>
      if bool_decide (c = ci ∧ 0 < s ∧ k ≤ h + 2 * p ∧ k ≤ w + 2 * p)
      then Some [b; co; out_dim h k s p; out_dim w k s p]
      else None
  | _ => None
  end.

Definition layer_shape (m : Layer) (sh : list Z) : option (list Z) :=
  match m with
  | MaxPool2d k s => pool_shape k s sh
  | SignatureConv ci co k s p | ConvBlock ci co k s p => block_shape ci co k s p sh
  end.


Definition numel (ds : list Z) : Z := foldr Z.mul 1 ds.


(** ** A backend of shapes

    The interface read on shapes alone: a tensor is its shape, a call
    computes the shape of its result and raises where the shapes do not
    fit. [nn.Linear] accepts a non-negative integer width. *)
Module ShapeBackend.

Definition of_option (o : option (list Z)) : result (list Z) :=
  match o with Some sh => Ok sh | None => Raise RuntimeError end.

Definition check (i : Z) (o : value) : option exn :=
  match o with
  | VInt n => if bool_decide (0 ≤ n) then None else Some RuntimeError
  | _ => Some TypeError
  end.

Definition linear (c : Linear) (x : list Z) : result (list Z) :=
  match x, out_features c with
  | [b; i], VInt n =>
      if bool_decide (i = in_features c) then Ok [b; n] else Raise RuntimeError
  | _, _ => Raise RuntimeError
  end.

Definition dim_size (x : list Z) (d : Z) : result Z :=
  match x !! Z.to_nat d with Some n => Ok n | None => Raise IndexError end.

Definition reshape (x : list Z) (sh : list Z) : result (list Z) :=
  match x, sh with
  | b :: ds, [b'; -1] =>
      if bool_decide (b = b' ∧ 0 < b ∧ Forall (λ d, 0 < d) ds)
      then Ok [b; numel ds]
      else Raise RuntimeError
  | _, _ => Raise RuntimeError
  end.

Definition torch : Torch := {|
  Tensor := list Z;
  Params := unit;
  shape := id;
  Linear_check := check;
  MaxPool2d_forward := λ k s x, of_option (layer_shape (MaxPool2d k s) x);
  SignatureConv_forward := λ _ _ ci co k s p x,
    of_option (layer_shape (SignatureConv ci co k s p) x);
  ConvBlock_forward := λ _ _ ci co k s p x,
    of_option (layer_shape (ConvBlock ci co k s p) x);
  Linear_forward := λ _, linear;
  size := dim_size;
  view := reshape;
  softmax := λ x _, Ok x
|}.

End ShapeBackend.

(** ** Stage predicates *)

(** What the loop appends at index [i] when the running channel count is
    [inp]. *)
Record stage_ok (i inp : Z) (m : Layer) : Prop := {
  stage_role :
    role m =
      if bool_decide (i ∈ maxpoolidx) then MaxPool
      else if bool_decide (i ∈ signed_layer) then SignedConvBlock
      else PlainConvBlock;
  stage_pool : is_conv m = false → m = MaxPool2d 2 2;
  stage_in : ∀ c, layer_in m = Some c → c = inp;
  stage_conv :
    is_conv m = true →
    layer_stride m = 1 ∧ layer_out m = oups !! i
    ∧ kp !! i = Some (layer_kernel m, layer_padding m)
}.

(** The layers appended over the indices [l], from channel count [c]. *)
Inductive stages : list Z → Z → list Layer → Prop :=
  | stages_nil c : stages [] c []
  | stages_cons i l c m ms :
      stage_ok i c m →
      stages l (default c (layer_out m)) ms →
      stages (i :: l) c (m :: ms).

(** Out-channels, kernel, padding and stride of a convolutional stage. *)
Definition conv_config (m : Layer) : option (Z * Z * Z * Z) :=
  if is_conv m
  then Some (default 0 (layer_out m), layer_kernel m, layer_padding m, layer_stride m)
  else None.

(** The pipeline every construction builds. *)
Definition alexnet_layers : list Layer :=
  [ ConvBlock 3 64 5 1 2; MaxPool2d 2 2;
    ConvBlock 64 192 5 1 2; MaxPool2d 2 2;
    SignatureConv 192 384 3 1 1;
    SignatureConv 384 256 3 1 1;
    SignatureConv 256 256 3 1 1;
    MaxPool2d 2 2 ].

(** * Construction *)

Lemma bind_Ok {A B} (r : result A) (f : A → result B) b :
  r ≫= f = Ok b → ∃ a, r = Ok a ∧ f a = Ok b.
Proof. destruct r as [a|e]; [eauto | discriminate]. Qed.

Lemma getitem_Ok {V} (d : gmap Z V) k v : getitem d k = Ok v → d !! k = Some v.
Proof. unfold getitem. destruct (d !! k); congruence. Qed.

Lemma loop_body_Ok st i st' :
  loop_body st i = Ok st' →
  ∃ m, st' = (st.1 ++ [m], default st.2 (layer_out m)) ∧ stage_ok i st.2 m.
Proof.
  destruct st as [layers inp]. unfold loop_body.
  case_bool_decide as Hpool.
  - intros [= <-]. exists (MaxPool2d 2 2). split; [done|].
    split; simpl; try done. by rw bool_decide_eq_true_2.
  - intros Hrun.
    apply bind_Ok in Hrun as ([k p] & Hkp%getitem_Ok & Hrun).
    rw /getitem Hkp /= in Hrun.
    apply bind_Ok in Hrun as (layers' & Hl & Hrun).
    apply bind_Ok in Hrun as (o & Ho%getitem_Ok & [= <-]).
    rw /getitem Ho /= in Hl.
    case_bool_decide as Hsig; injection Hl as <-.
    + exists (SignatureConv inp o k 1 p). split; [done|].
      split; simpl; try done.
      * by rw bool_decide_eq_false_2 // bool_decide_eq_true_2.
      * by intros c [= <-].
    + exists (ConvBlock inp o k 1 p). split; [done|].
      split; simpl; try done.
      * by rw !bool_decide_eq_false_2.
      * by intros c [= <-].
Qed.

(** Loop invariant: whatever indices the loop runs over and from whatever
    locals, it only appends, one stage per index, and leaves in [inp] the
    channel count carried out of what it appended. *)
Lemma for_each_loop_body l : ∀ st st',
  for_each loop_body l st = Ok st' →
  ∃ ms, st'.1 = st.1 ++ ms ∧ st'.2 = channels_after st.2 ms ∧ stages l st.2 ms.
Proof.
  induction l as [|i l IH]; intros st st' Hrun; simpl in Hrun.
  - injection Hrun as <-. exists []. rw app_nil_r. repeat split. constructor.
  - apply bind_Ok in Hrun as (st1 & Hbody & Hrest).
    apply loop_body_Ok in Hbody as (m & -> & Hm).
    apply IH in Hrest as (ms & H1 & H2 & Hms). simpl in *.
    exists (m :: ms). rw H1 H2 -app_assoc. repeat split.
    by constructor.
Qed.

Lemma stages_length l c ms : stages l c ms → length ms = length l.
Proof. induction 1; simpl; congruence. Qed.

Lemma stages_lookup l c ms :
  stages l c ms →
  ∀ j m, ms !! j = Some m →
  ∃ i, l !! j = Some i ∧ stage_ok i (channels_after c (take j ms)) m.
Proof.
  induction 1 as [|i l c m0 ms Hm0 _ IH]; intros j m Hj; [done|].
  destruct j as [|j]; simpl in *.
  - injection Hj as <-. eauto.
  - apply IH in Hj as (i' & ? & ?). eauto.
Qed.

Lemma build_layers_Ok : build_layers = Ok (alexnet_layers, 256).
Proof. vm_compute. reflexivity. Qed.

Lemma build_layers_stages : stages (seqZ 0 8) in_channels alexnet_layers.
Proof.
  destruct (for_each_loop_body (seqZ 0 8) ([], in_channels) _ build_layers_Ok)
    as (ms & Hms & _ & Hst).
  simpl in Hms. by subst ms.
Qed.

Lemma init_Ok `{Torch} num_classes self :
  __init__ num_classes = Ok self →
  Linear_check 4096 num_classes = None
  ∧ self = mk alexnet_layers (mkLinear 4096 num_classes) true.
Proof.
  unfold __init__. rw build_layers_Ok /= /nn_Linear.
  change (4 * 4 * 256) with 4096.
  destruct (Linear_check 4096 num_classes); simpl; [discriminate|].
  by intros [= <-].
Qed.

Lemma features_lookup_stage (i : nat) m :
  alexnet_layers !! i = Some m →
  stage_ok (Z.of_nat i) (channels_after in_channels (take i alexnet_layers)) m.
Proof.
  intros Hi.
  destruct (stages_lookup _ _ _ build_layers_stages i m Hi) as (i' & Hi' & Hst).
  apply lookup_seqZ in Hi' as [-> _]. by rw Z.add_0_l in Hst.
Qed.

(** C3: for every [num_classes], the constructed pipeline has exactly 8
    stages; positions 1, 3 and 7 are max-pooling layers, positions 4, 5 and
    6 are [SignatureConv] blocks, positions 0 and 2 are [ConvBlock]s. *)
Theorem pipeline_roles `{Torch} (num_classes : value) (self : t) :
  __init__ num_classes = Ok self →
  length (features self) = 8%nat
  ∧ role <$> features self =
      [ PlainConvBlock; MaxPool; PlainConvBlock; MaxPool;
        SignedConvBlock; SignedConvBlock; SignedConvBlock; MaxPool ]
  ∧ ∀ (i : nat) m, features self !! i = Some m →
      role m =
        if bool_decide (Z.of_nat i ∈ [1; 3; 7]) then MaxPool
        else if bool_decide (Z.of_nat i ∈ [4; 5; 6]) then SignedConvBlock
        else PlainConvBlock.
Proof.
  intros [_ ->]%init_Ok. cbn [features]. split; [|split]; [|done|].
  - by rw (stages_length _ _ _ build_layers_stages) length_seqZ.
  - intros i m Hi. by destruct (features_lookup_stage i m Hi).
Qed.

Lemma pipeline_roles_witness :
  __init__ (H := ShapeBackend.torch) (VInt 10)
    = Ok (mk alexnet_layers (mkLinear 4096 (VInt 10)) true)
  ∧ length alexnet_layers = 8%nat
  ∧ role <$> alexnet_layers =
      [ PlainConvBlock; MaxPool; PlainConvBlock; MaxPool;
        SignedConvBlock; SignedConvBlock; SignedConvBlock; MaxPool ].
Proof.
  split; [vm_compute; reflexivity|].
  destruct (pipeline_roles (H := ShapeBackend.torch) (VInt 10)
              (mk alexnet_layers (mkLinear 4096 (VInt 10)) true)
              ltac:(vm_compute; reflexivity)) as (Hlen & Hroles & _).
  exact (conj Hlen Hroles).
Defined.

(** C4: position 0 takes 3 channels, and every later convolutional position
    takes the out-channel count of the most recent convolutional layer
    before it (64 at position 2, 192 at 4, 384 at 5, 256 at 6); a pooling
    position leaves the channel count as it is. *)
Theorem channel_chaining `{Torch} (num_classes : value) (self : t) :
  __init__ num_classes = Ok self →
  layer_in <$> features self =
    [Some 3; None; Some 64; None; Some 192; Some 384; Some 256; None]
  ∧ (∀ (i : nat) m c,
       features self !! i = Some m → layer_in m = Some c →
       c = channels_after 3 (take i (features self)))
  ∧ (∀ (i : nat) m,
       features self !! i = Some m → role m = MaxPool →
       channels_after 3 (take (S i) (features self))
       = channels_after 3 (take i (features self))).
Proof.
  intros [_ ->]%init_Ok. cbn [features]. split; [done|split].
  - intros i m c Hi Hc.
    destruct (features_lookup_stage i m Hi) as [_ _ Hin _]. by apply Hin.
  - intros i m Hi Hrole. rw (take_S_r _ _ _ Hi) /channels_after foldl_snoc.
    by destruct m.
Qed.

Lemma channel_chaining_witness :
  __init__ (H := ShapeBackend.torch) (VInt 10)
    = Ok (mk alexnet_layers (mkLinear 4096 (VInt 10)) true)
  ∧ layer_in <$> alexnet_layers =
      [Some 3; None; Some 64; None; Some 192; Some 384; Some 256; None].
Proof.
  split; [vm_compute; reflexivity|].
  apply (channel_chaining (H := ShapeBackend.torch) (VInt 10)
           (mk alexnet_layers (mkLinear 4096 (VInt 10)) true)).
  vm_compute; reflexivity.
Defined.

(** C5: every convolutional stage is built with stride 1 and with the
    out-channel count and the (kernel, padding) pair that the two tables
    hold at its position: 64, 192, 384, 256, 256 and (5,2), (5,2), (3,1),
    (3,1), (3,1) at positions 0, 2, 4, 5, 6. *)
Theorem conv_stage_config `{Torch} (num_classes : value) (self : t) :
  __init__ num_classes = Ok self →
  conv_config <$> features self =
    [ Some (64, 5, 2, 1); None; Some (192, 5, 2, 1); None;
      Some (384, 3, 1, 1); Some (256, 3, 1, 1); Some (256, 3, 1, 1); None ]
  ∧ ∀ (i : nat) m,
      features self !! i = Some m → is_conv m = true →
      layer_stride m = 1
      ∧ layer_out m = oups !! Z.of_nat i
      ∧ kp !! Z.of_nat i = Some (layer_kernel m, layer_padding m).
Proof.
  intros [_ ->]%init_Ok. cbn [features]. split; [done|].
  intros i m Hi Hconv.
  destruct (features_lookup_stage i m Hi) as [_ _ _ Hc]. by apply Hc.
Qed.

Lemma conv_stage_config_witness :
  __init__ (H := ShapeBackend.torch) (VInt 10)
    = Ok (mk alexnet_layers (mkLinear 4096 (VInt 10)) true)
  ∧ conv_config <$> alexnet_layers =
      [ Some (64, 5, 2, 1); None; Some (192, 5, 2, 1); None;
        Some (384, 3, 1, 1); Some (256, 3, 1, 1); Some (256, 3, 1, 1); None ].
Proof.
  split; [vm_compute; reflexivity|].
  apply (conv_stage_config (H := ShapeBackend.torch) (VInt 10)
           (mk alexnet_layers (mkLinear 4096 (VInt 10)) true)).
  vm_compute; reflexivity.
Defined.

(** C6: the classifier is one linear transform of input width
    4*4*256 = 4096 and of output width [num_classes]; two constructions with
    different [num_classes] differ in that width only, their feature
    pipelines are the same. *)
Theorem classifier_width `{Torch} (n1 n2 : value) (self1 self2 : t) :
  __init__ n1 = Ok self1 →
  __init__ n2 = Ok self2 →
  in_features (classifier self1) = 4 * 4 * 256
  ∧ in_features (classifier self1) = 4096
  ∧ out_features (classifier self1) = n1
  ∧ out_features (classifier self2) = n2
  ∧ features self1 = features self2.
Proof. by intros [_ ->]%init_Ok [_ ->]%init_Ok. Qed.

Lemma classifier_width_witness :
  out_features (classifier (mk alexnet_layers (mkLinear 4096 (VInt 2)) true)) = VInt 2
  ∧ out_features (classifier (mk alexnet_layers (mkLinear 4096 (VInt 10)) true)) = VInt 10.
Proof.
  pose proof (classifier_width (H := ShapeBackend.torch) (VInt 2) (VInt 10)
                (mk alexnet_layers (mkLinear 4096 (VInt 2)) true)
                (mk alexnet_layers (mkLinear 4096 (VInt 10)) true)
                ltac:(vm_compute; reflexivity) ltac:(vm_compute; reflexivity))
    as (_ & _ & H2 & H10 & _).
  exact (conj H2 H10).
Defined.

(** C8: the constructor does not look at [num_classes]. Whatever the value
    (zero, negative, not an integer), it goes unchanged to [nn.Linear];
    construction raises exactly when that primitive does, with the
    primitive's own exception, and otherwise the model keeps the value as
    the classifier's width. *)
Theorem init_passes_num_classes `{Torch} (num_classes : value) :
  __init__ num_classes =
    match Linear_check (4 * 4 * 256) num_classes with
    | Some e => Raise e
    | None => Ok (mk alexnet_layers (mkLinear (4 * 4 * 256) num_classes) true)
    end.
Proof.
  unfold __init__. rw build_layers_Ok /= /nn_Linear.
  by destruct (Linear_check (4 * 4 * 256) num_classes).
Qed.

(** C10: every index of [range(8)] that is not a pooling position is a key
    of both tables, so the turn of the loop at that index raises nothing,
    from any locals, and the loop as a whole builds its layers. *)
Theorem table_lookups_total (layeridx : Z) :
  0 ≤ layeridx < 8 →
  layeridx ∉ maxpoolidx →
  is_Some (oups !! layeridx) ∧ is_Some (kp !! layeridx)
  ∧ (∀ st, is_Ok (loop_body st layeridx))
  ∧ is_Ok build_layers.
Proof.
  intros Hrange Hpool.
  assert (layeridx = 0 ∨ layeridx = 2 ∨ layeridx = 4 ∨ layeridx = 5
          ∨ layeridx = 6) as Hidx.
  { unfold maxpoolidx in Hpool. rw !not_elem_of_cons in Hpool. lia. }
  destruct Hidx as [-> | [-> | [-> | [-> | ->]]]];
    (repeat split;
     [ by eexists | by eexists | intros [layers inp]; by eexists
     | eexists; apply build_layers_Ok ]).
Qed.

Lemma table_lookups_total_witness :
  is_Some (oups !! 4) ∧ is_Some (kp !! 4)
  ∧ (∀ st, is_Ok (loop_body st 4))
  ∧ is_Ok build_layers.
Proof.
  apply (table_lookups_total 4); [lia|].
  unfold maxpoolidx. rw !not_elem_of_cons.
  repeat split; [lia..|apply not_elem_of_nil].
Defined.

(** Zero, a negative and a fractional [num_classes] on the backend of
    shapes: each reaches [nn.Linear] as it is, and the exception, where
    there is one, is that primitive's. *)
Example init_zero :
  __init__ (H := ShapeBackend.torch) (VInt 0)
  = Ok (mk alexnet_layers (mkLinear 4096 (VInt 0)) true).
Proof. vm_compute. reflexivity. Qed.

Example init_negative :
  __init__ (H := ShapeBackend.torch) (VInt (-1)) = Raise RuntimeError.
Proof. vm_compute. reflexivity. Qed.

Example init_fraction :
  __init__ (H := ShapeBackend.torch) (VFloat (5 # 2)) = Raise TypeError.
Proof. vm_compute. reflexivity. Qed.

(** * Forward *)

Section forward_facts.
Context `{Torch} (θ : Params).

Lemma layers_called_le ms : ∀ i x, (layers_called θ i ms x ≤ length ms)%nat.
Proof.
  induction ms as [|m ms IH]; intros i x; simpl; [lia|].
  destruct (Layer_call θ i m x) as [x'|e]; [|lia].
  specialize (IH (S i) x'). lia.
Qed.

Lemma layers_called_Ok ms : ∀ i x y,
  spec_feature_map θ i ms x = Ok y → layers_called θ i ms x = length ms.
Proof.
  induction ms as [|m ms IH]; intros i x y Hy; simpl in *; [done|].
  destruct (Layer_call θ i m x) as [x'|e]; [|done].
  by rw (IH _ _ _ Hy).
Qed.

(** The loop over the layers leaves [self] alone, returns what threading
    the tensor through the layers returns, and calls the layers in order
    of position. *)
Lemma run_layers_outcome ms : ∀ i x self,
  run_layers θ i ms x self
  = Outcome (spec_feature_map θ i ms x) self
      (CallLayer <$> seq i (layers_called θ i ms x)).
Proof.
  induction ms as [|m ms IH]; intros i x self; [done|].
  cbn [run_layers spec_feature_map layers_called].
  rw /mbind /M_bind /invoke /=.
  destruct (Layer_call θ i m x) as [x'|e]; [|done].
  by rw IH.
Qed.

Lemma forward_outcome x self :
  forward θ x self
  = Outcome
      (scores ← spec_scores θ self x;
       if training self then Ok scores else softmax scores 1)
      self
      ((CallLayer <$> seq 0 (layers_called θ 0 (features self) x))
       ++ match spec_feature_map θ 0 (features self) x with
          | Ok x' => tail_calls θ self x'
          | Raise _ => []
          end).
Proof.
  rw /forward /spec_scores /tail_calls /mbind /M_bind /attr /= run_layers_outcome /=.
  destruct (spec_feature_map θ 0 (features self) x) as [x0|e]; simpl;
    [|by rw app_nil_r].
  destruct (size x0 0) as [b|e]; simpl; [|done].
  destruct (view x0 [b; -1]) as [x1|e]; simpl; [|done].
  destruct (Linear_forward θ (classifier self) x1) as [x2|e]; simpl; [|done].
  by destruct (training self).
Qed.

Lemma tail_calls_prefix self x :
  tail_calls θ self x `prefix_of`
    [CallSize; CallView; CallClassifier]
    ++ (if training self then [] else [CallSoftmax]).
Proof.
  unfold tail_calls.
  destruct (size x 0) as [b|e]; [|by eexists].
  destruct (view x [b; -1]) as [x1|e]; [|by eexists].
  destruct (Linear_forward θ (classifier self) x1) as [x2|e]; [|by eexists].
  exists []. by rw app_nil_r.
Qed.

Lemma forward_calls_prefix x self :
  calls (forward θ x self) `prefix_of` full_calls self.
Proof.
  rw forward_outcome /full_calls /=.
  destruct (spec_feature_map θ 0 (features self) x) as [x0|e] eqn:Hfm.
  - rw (layers_called_Ok _ _ _ _ Hfm).
    apply prefix_app, tail_calls_prefix.
  - rw app_nil_r.
    pose proof (layers_called_le (features self) 0 x) as Hle.
    set (k := layers_called θ 0 (features self) x) in *.
    replace (length (features self)) with (k + (length (features self) - k))%nat by lia.
    rw seq_app fmap_app -app_assoc. by eexists.
Qed.

Lemma forward_calls_Ok x self y :
  returned (forward θ x self) = Ok y → calls (forward θ x self) = full_calls self.
Proof.
  rw forward_outcome /full_calls /spec_scores /tail_calls /=.
  destruct (spec_feature_map θ 0 (features self) x) as [x0|e] eqn:Hfm; [|done].
  rw (layers_called_Ok _ _ _ _ Hfm) /=.
  destruct (size x0 0) as [b|e]; simpl; [|done].
  destruct (view x0 [b; -1]) as [x1|e]; simpl; [|done].
  by destruct (Linear_forward θ (classifier self) x1) as [x2|e].
Qed.

End forward_facts.

(** C2: with the same input and the same parameters, what forward returns
    in evaluation mode is the softmax along dimension 1, the class
    dimension, of what it returns in training mode (and the exception of
    the training-mode run where that run raises). *)
Theorem eval_softmax_of_train `{Torch} (θ : Params) (self : t) (x : Tensor) :
  returned (forward θ x (set_training false self))
  = (scores ← returned (forward θ x (set_training true self)); softmax scores 1).
Proof.
  rw !forward_outcome /spec_scores /=.
  by destruct (spec_feature_map θ 0 (features self) x ≫= _).
Qed.

Section composition.
Context `{Torch} (θ : Params).

Lemma compose_all_app fs gs x :
  compose_all (fs ++ gs) x = compose_all fs x ≫= compose_all gs.
Proof.
  revert x. induction fs as [|f fs IH]; intros x; simpl; [done|].
  destruct (f x) as [x'|e]; simpl; [apply IH|done].
Qed.

Lemma compose_layer_stages ms : ∀ i x,
  compose_all (layer_stages θ i ms) x = spec_feature_map θ i ms x.
Proof.
  induction ms as [|m ms IH]; intros i x; simpl; [done|].
  destruct (Layer_call θ i m x) as [x'|e]; simpl; [apply IH|done].
Qed.

(** The value of forward is the value of its stages composed. *)
Lemma forward_composition x self :
  returned (forward θ x self) = compose_all (spec_stages θ self) x.
Proof.
  rw forward_outcome /spec_scores /spec_stages compose_all_app compose_layer_stages /=.
  destruct (spec_feature_map θ 0 (features self) x) as [x0|e]; simpl; [|done].
  unfold spec_flatten.
  destruct (size x0 0) as [b|e]; simpl; [|done].
  destruct (view x0 [b; -1]) as [x1|e]; simpl; [|done].
  destruct (Linear_forward θ (classifier self) x1) as [x2|e]; simpl; [|done].
  destruct (training self); simpl; [done|].
  by destruct (softmax x2 1).
Qed.

End composition.

(** C9: forward is the composition of a list of stages that is read off
    the model and its mode flag, never off the input: the flag decides
    one thing, whether the softmax closes the list. It assigns nothing:
    the model (pipeline, classifier, mode flag) comes out as it went in,
    so a second call with the same input has the same outcome. The calls
    it makes are an initial part of a list fixed by the number of layers
    and the flag, the whole of it when it returns, so two inputs on which
    it returns take the same path. *)
Theorem forward_pure `{Torch} (θ : Params) (self : t) (x x' : Tensor) :
  let o := forward θ x self in
  returned o = compose_all (spec_stages θ self) x
  ∧ spec_stages θ (set_training false self)
    = spec_stages θ (set_training true self) ++ [λ scores, softmax scores 1]
  ∧ self_after o = self
  ∧ forward θ x (self_after o) = o
  ∧ calls o `prefix_of` full_calls self
  ∧ match returned o with
    | Ok _ => calls o = full_calls self
    | Raise _ => True
    end
  ∧ match returned o, returned (forward θ x' self) with
    | Ok _, Ok _ => calls o = calls (forward θ x' self)
    | _, _ => True
    end
  ∧ full_calls (set_training false self)
    = full_calls (set_training true self) ++ [CallSoftmax].
Proof.
  intros o.
  assert (self_after o = self) as Hself by (subst o; by rw forward_outcome).
  split; [apply forward_composition|].
  split; [by rw /spec_stages /= -app_assoc|].
  split; [done|]. split; [by rw Hself|].
  split; [apply forward_calls_prefix|]. split; [|split].
  - destruct (returned o) as [y|e] eqn:Hy; [|done].
    by apply forward_calls_Ok in Hy.
  - destruct (returned o) as [y|e] eqn:Hy; [|done].
    destruct (returned (forward θ x' self)) as [y'|e] eqn:Hy'; [|done].
    apply forward_calls_Ok in Hy, Hy'. subst o. congruence.
  - by rw /full_calls /= -app_assoc.
Qed.

(** Neither part is a property of every method body: one that assigns an
    attribute hands back another object, and a second run from there ends
    otherwise. Here, a method that calls the softmax in evaluation mode and
    then switches to training mode. *)
Example assigning_method_is_not_pure :
  let switch : M () :=
    tr ← attr training;
    (if (tr : bool) then mret () else invoke CallSoftmax (Ok ()));;
    assign (set_training true) in
  let self := mk alexnet_layers (mkLinear 4096 (VInt 10)) false in
  self_after (switch self) = set_training true self
  ∧ calls (switch self) = [CallSoftmax]
  ∧ calls (switch (self_after (switch self))) = [].
Proof. by vm_compute. Qed.

Section shapes.
Context `{Torch} `{!TorchShapes} (θ : Params).



End shapes.





(** The two modes and a failing run, on the backend of shapes: evaluation
    mode ends with the softmax call; a 64x64 batch reaches the classifier
    with 256*8*8 features per example and is refused there, after which
    nothing more is called. *)
Example forward_eval_shapes :
  forward (H := ShapeBackend.torch) () [2; 3; 32; 32]
    (set_training false (mk alexnet_layers (mkLinear 4096 (VInt 10)) true))
  = Outcome (Ok [2; 10])
      (set_training false (mk alexnet_layers (mkLinear 4096 (VInt 10)) true))
      [ CallLayer 0; CallLayer 1; CallLayer 2; CallLayer 3;
        CallLayer 4; CallLayer 5; CallLayer 6; CallLayer 7;
        CallSize; CallView; CallClassifier; CallSoftmax ].
Proof. vm_compute. reflexivity. Qed.

Example forward_wrong_extent :
  forward (H := ShapeBackend.torch) () [2; 3; 64; 64]
    (mk alexnet_layers (mkLinear 4096 (VInt 10)) true)
  = Outcome (Raise RuntimeError)
      (mk alexnet_layers (mkLinear 4096 (VInt 10)) true)
      [ CallLayer 0; CallLayer 1; CallLayer 2; CallLayer 3;
        CallLayer 4; CallLayer 5; CallLayer 6; CallLayer 7;
        CallSize; CallView; CallClassifier ].
Proof. vm_compute. reflexivity. Qed.

Example forward_wrong_channels :
  forward (H := ShapeBackend.torch) () [2; 1; 32; 32]
    (mk alexnet_layers (mkLinear 4096 (VInt 10)) true)
  = Outcome (Raise RuntimeError)
      (mk alexnet_layers (mkLinear 4096 (VInt 10)) true)
      [ CallLayer 0 ].
Proof. vm_compute. reflexivity. Qed.

(** * Beyond the pipeline as built: the loop on other indices *)

Lemma kp_outside (i : Z) : i < 0 ∨ 8 ≤ i → kp !! i = None.
Proof.
  intros Hi. unfold kp.
  rw !lookup_insert_ne; [lia..|]. apply lookup_empty.
Qed.

Lemma loop_body_outside st (i : Z) :
  i < 0 ∨ 8 ≤ i → loop_body st i = Raise (KeyError i).
Proof.
  intros Hi. destruct st as [layers inp]. unfold loop_body.
  rw bool_decide_eq_false_2.
  { unfold maxpoolidx. rw !not_elem_of_cons.
    repeat split; [lia..|apply not_elem_of_nil]. }
  by rw /getitem (kp_outside i Hi).
Qed.

Lemma loop_body_inside st (i : Z) :
  0 ≤ i < 8 →
  ∃ m, loop_body st i = Ok (st.1 ++ [m], default st.2 (layer_out m)).
Proof.
  intros Hi. destruct st as [layers inp].
  assert (i = 0 ∨ i = 1 ∨ i = 2 ∨ i = 3 ∨ i = 4 ∨ i = 5 ∨ i = 6 ∨ i = 7)
    as Hcases by lia.
  destruct Hcases as [-> | [-> | [-> | [-> | [-> | [-> | [-> | ->]]]]]]];
    first [ by exists (MaxPool2d 2 2)
          | by eexists (ConvBlock _ _ _ _ _)
          | by eexists (SignatureConv _ _ _ _ _) ].
Qed.

(** X1: run over any indices of 0..7, in any order and from any locals,
    the construction loop raises nothing and only appends: the layers it
    was given stay in front, one layer is added per index, and [inp] ends
    as the channel count carried out of the layers added. *)
Theorem construction_loop_appends (l : list Z) (st : list Layer * Z) :
  Forall (λ i, 0 ≤ i < 8) l →
  ∃ ms,
    for_each loop_body l st = Ok (st.1 ++ ms, channels_after st.2 ms)
    ∧ length ms = length l
    ∧ stages l st.2 ms.
Proof.
  intros Hl. revert st.
  induction Hl as [|i l Hi _ IH]; intros st.
  - exists []. rw app_nil_r. destruct st. repeat split. constructor.
  - destruct (loop_body_inside st i Hi) as (m & Hm).
    destruct (loop_body_Ok _ _ _ Hm) as (m' & [= Heq _] & Hst).
    apply app_inv_head in Heq as [= <-].
    destruct (IH (st.1 ++ [m], default st.2 (layer_out m))) as (ms & Hrun & Hlen & Hms).
    exists (m :: ms). simpl in *. rw Hm /= Hrun -app_assoc /=.
    repeat split; [by rw Hlen | by constructor].
Qed.

Lemma construction_loop_appends_witness :
  ∃ ms,
    for_each loop_body [4; 1; 0] ([MaxPool2d 2 2], 7)
    = Ok ([MaxPool2d 2 2] ++ ms, channels_after 7 ms)
    ∧ length ms = 3%nat
    ∧ stages [4; 1; 0] 7 ms.
Proof.
  apply (construction_loop_appends [4; 1; 0] ([MaxPool2d 2 2], 7)).
  repeat constructor; lia.
Defined.

(** X2: the two tables cover the indices 0..7 and no other. If the loop
    meets an index outside 0..7 after indices inside it, it stops there
    with [KeyError] of that index, raised by the first lookup in [kp], and
    hands back no layers. *)
Theorem construction_loop_KeyError
    (l1 l2 : list Z) (i : Z) (st : list Layer * Z) :
  Forall (λ j, 0 ≤ j < 8) l1 →
  i < 0 ∨ 8 ≤ i →
  for_each loop_body (l1 ++ i :: l2) st = Raise (KeyError i).
Proof.
  intros Hl1 Hi. revert st.
  induction Hl1 as [|j l1 Hj _ IH]; intros st; simpl.
  - by rw (loop_body_outside st i Hi).
  - destruct (loop_body_inside st j Hj) as (m & ->). simpl. apply IH.
Qed.

Lemma construction_loop_KeyError_witness :
  for_each loop_body (seqZ 0 9) ([], in_channels) = Raise (KeyError 8).
Proof.
  apply (construction_loop_KeyError (seqZ 0 8) [] 8 ([], in_channels)).
  - vm_compute seqZ. repeat constructor; lia.
  - lia.
Defined.

(** * Forward on other inputs *)








Section forward_more.
Context `{Torch} (θ : Params).

(** A layer that raises after a prefix that returned: the pipeline raises
    the same, and the calls stop with that layer. *)
Lemma spec_feature_map_raise pre m post e : ∀ i x xj,
  spec_feature_map θ i pre x = Ok xj →
  Layer_call θ (i + length pre) m xj = Raise e →
  spec_feature_map θ i (pre ++ m :: post) x = Raise e
  ∧ layers_called θ i (pre ++ m :: post) x = S (length pre).
Proof.
  induction pre as [|m0 pre IH]; intros i x xj Hpre Hm; simpl in *.
  - injection Hpre as ->. rw Nat.add_0_r in Hm. by rw Hm.
  - destruct (Layer_call θ i m0 x) as [x'|e']; [|done]. simpl in *.
    destruct (IH (S i) x' xj Hpre) as [-> ->]; [|done].
    by rw Nat.add_succ_comm.
Qed.

End forward_more.

Section scores_shape.
Context `{Torch} `{!TorchShapes} (θ : Params).


End scores_shape.





(** X5: when the layer at position j raises on what the layers before it
    produced, forward raises that same exception; layers 0..j are the only
    calls made (no later layer, no flatten, classifier or softmax) and the
    model is left as it was. *)
Theorem forward_layer_raises `{Torch}
    (θ : Params) (self : t) (x xj : Tensor) (j : nat) (m : Layer) (e : exn) :
  features self !! j = Some m →
  spec_feature_map θ 0 (take j (features self)) x = Ok xj →
  Layer_call θ j m xj = Raise e →
  forward θ x self = Outcome (Raise e) self (CallLayer <$> seq 0 (S j)).
Proof.
  intros Hj Hpre Hm.
  assert (length (take j (features self)) = j) as Hlen.
  { apply length_take_le, Nat.lt_le_incl, (lookup_lt_Some _ _ _ Hj). }
  destruct (spec_feature_map_raise θ (take j (features self)) m
              (drop (S j) (features self)) e 0%nat x xj Hpre) as [Hfm Hcalled].
  { by rw Hlen. }
  rw (take_drop_middle _ _ _ Hj) Hlen in Hfm Hcalled.
  by rw forward_outcome /spec_scores Hfm Hcalled /= app_nil_r.
Qed.

Lemma forward_layer_raises_witness :
  forward (H := ShapeBackend.torch) () [2; 3; 2; 2]
    (mk alexnet_layers (mkLinear 4096 (VInt 10)) false)
  = Outcome (Raise RuntimeError)
      (mk alexnet_layers (mkLinear 4096 (VInt 10)) false)
      [CallLayer 0; CallLayer 1; CallLayer 2; CallLayer 3].
Proof.
  apply (forward_layer_raises (H := ShapeBackend.torch) ()
           (mk alexnet_layers (mkLinear 4096 (VInt 10)) false)
           [2; 3; 2; 2] [2; 192; 1; 1] 3 (MaxPool2d 2 2) RuntimeError);
    vm_compute; reflexivity.
Defined.

(** X6: when the classifier raises on the flattened features, forward
    raises that same exception in either mode; the softmax is not called,
    and the model is left as it was. *)
Theorem forward_classifier_raises `{Torch}
    (θ : Params) (self : t) (x x0 x1 : Tensor) (b : Z) (e : exn) :
  spec_feature_map θ 0 (features self) x = Ok x0 →
  size x0 0 = Ok b →
  view x0 [b; -1] = Ok x1 →
  Linear_forward θ (classifier self) x1 = Raise e →
  forward θ x self
  = Outcome (Raise e) self
      ((CallLayer <$> seq 0 (length (features self)))
       ++ [CallSize; CallView; CallClassifier]).
Proof.
  intros Hfm Hsize Hview Hc.
  rw forward_outcome /spec_scores /tail_calls.
  by rw (layers_called_Ok _ _ _ _ _ Hfm) Hfm /= Hsize /= Hview /= Hc.
Qed.

Lemma forward_classifier_raises_witness :
  forward (H := ShapeBackend.torch) () [2; 3; 64; 64]
    (mk alexnet_layers (mkLinear 4096 (VInt 10)) false)
  = Outcome (Raise RuntimeError)
      (mk alexnet_layers (mkLinear 4096 (VInt 10)) false)
      ((CallLayer <$> seq 0 8) ++ [CallSize; CallView; CallClassifier]).
Proof.
  apply (forward_classifier_raises (H := ShapeBackend.torch) ()
           (mk alexnet_layers (mkLinear 4096 (VInt 10)) false)
           [2; 3; 64; 64] [2; 256; 8; 8] [2; 16384] 2 RuntimeError);
    vm_compute; reflexivity.
Defined.

(** X7: in training mode, on every model and every input, well-shaped or
    not, what forward returns or raises is what the pipeline, the flatten
    and the classifier return or raise, untouched, and no call it makes is
    the softmax. *)
Theorem forward_training_returns_scores `{Torch}
    (θ : Params) (self : t) (x : Tensor) :
  training self = true →
  returned (forward θ x self) = spec_scores θ self x
  ∧ Forall (λ c, c ≠ CallSoftmax) (calls (forward θ x self)).
Proof.
  intros Htr. split.
  - rw forward_outcome Htr /=. by destruct (spec_scores θ self x).
  - destruct (forward_calls_prefix θ x self) as [k Hk].
    assert (Forall (λ c, c ≠ CallSoftmax) (full_calls self)) as Hfull.
    { rw /full_calls Htr. apply Forall_app. split.
      - apply Forall_fmap, Forall_forall. by intros i _.
      - by repeat constructor. }
    rw Hk in Hfull. by apply Forall_app in Hfull as [? _].
Qed.

Lemma forward_training_returns_scores_witness :
  returned (forward (H := ShapeBackend.torch) () [2; 1; 32; 32]
              (mk alexnet_layers (mkLinear 4096 (VInt 10)) true))
  = spec_scores (H := ShapeBackend.torch) ()
      (mk alexnet_layers (mkLinear 4096 (VInt 10)) true) [2; 1; 32; 32]
  ∧ Forall (λ c, c ≠ CallSoftmax)
      (calls (forward (H := ShapeBackend.torch) () [2; 1; 32; 32]
                (mk alexnet_layers (mkLinear 4096 (VInt 10)) true))).
Proof.
  apply (forward_training_returns_scores (H := ShapeBackend.torch) ()
           (mk alexnet_layers (mkLinear 4096 (VInt 10)) true) [2; 1; 32; 32]).
  reflexivity.
Defined.
